(** * The bias table [b4] of the MNIST MLP firmware

    [firmware/weights/b4.h] is a generated header.  It holds no function:
    an include guard, a conditional on [__SYNTHESIS__], and inside it two
    alternative definitions of the array [b4].  The development below
    embeds the header line by line, gives the preprocessor directives it
    uses and the initialisation of an array definition their meaning, and
    states the properties of the table against the result. *)

From Stdlib Require Import QArith Qminmax SpecFloat.
From stdpp Require Import base gmap strings list.

(** ** The text of the header *)

(** An array definition [static T name[size] = {...};].  The header spells
    no [const]; the field records that. *)
Record array_decl := ArrayDecl {
  d_static : bool;
  d_const : bool;
  d_type : string;
  d_name : string;
  d_size : nat;
  d_init : option (list Q)
}.

(** A line of the header: a [//] comment, an empty line, one of the four
    directives that occur, or a definition. *)
Inductive line :=
  | Comment (text : string)
  | Blank
  | Ifndef (macro : string)
  | Define (macro : string)
  | Else
  | Endif
  | Decl (d : array_decl).

(** Line 12, the braces of the initializer: decimal literals read at their
    written value; a rational [n # 10000] keeps the four printed digits. *)
Definition b4_init : list Q := [
    -0.1326; -0.2092; -0.2121; -0.1416; -0.2045; -0.2161; -0.2601; -0.0998;
    -0.1124; -0.0799; -0.2167; -0.1787;  0.0070; -0.1391; -0.1298; -0.1411;
    -0.0910; -0.1364; -0.0433; -0.1804; -0.1886; -0.1896; -0.2016; -0.1947;
    -0.1379; -0.0252; -0.0635;  0.0984; -0.1527; -0.0968; -0.1649; -0.1321;
    -0.1358; -0.1319; -0.0695; -0.0677; -0.0952; -0.1008; -0.0247; -0.2302;
    -0.0603; -0.1063; -0.0666; -0.1769; -0.0679; -0.1644; -0.0869; -0.2376;
    -0.2032; -0.2634; -0.1487; -0.0441; -0.0786; -0.1214; -0.0746; -0.1626;
    -0.0906; -0.0844;  0.0086; -0.1645; -0.1422; -0.1091; -0.2137; -0.2501;
    -0.0069; -0.2051; -0.0713; -0.1181; -0.1385; -0.0278; -0.0297; -0.0958;
    -0.0898;  0.0206; -0.1141; -0.1261; -0.2135; -0.1169; -0.0247; -0.1346;
    -0.2172; -0.1054; -0.1447; -0.0642; -0.1364; -0.1780; -0.0059; -0.1047;
    -0.0765; -0.1538; -0.0689; -0.1119; -0.2540; -0.0988; -0.0540; -0.1653;
     0.0129; -0.1750; -0.0628; -0.1074; -0.1850; -0.2101; -0.2290; -0.0841;
    -0.2285; -0.0995; -0.2102; -0.1037; -0.1851; -0.1164; -0.0167; -0.1352;
    -0.1288; -0.0778; -0.1216; -0.1592; -0.1176; -0.1091; -0.1878; -0.1686;
    -0.1777; -0.1279; -0.1160; -0.2089; -0.0585; -0.0334; -0.1846; -0.1948;
    -0.1588; -0.0880; -0.1588; -0.1495; -0.1278; -0.0182; -0.1386; -0.1104;
    -0.0687; -0.1702; -0.2141; -0.2277; -0.1559; -0.0850; -0.1378; -0.1005;
    -0.1828; -0.2076; -0.0049; -0.1465; -0.1062; -0.1167; -0.0380; -0.1259;
    -0.1127; -0.1061; -0.2068;  0.0411; -0.0978; -0.0765; -0.0226; -0.1240;
    -0.1099; -0.1185; -0.0833; -0.1133; -0.1747; -0.0091; -0.1372; -0.0939;
    -0.1557; -0.1648; -0.1263; -0.0326; -0.1944; -0.1816;  0.0059; -0.1009;
    -0.1474; -0.1396; -0.0269; -0.1183; -0.0893; -0.0275; -0.1459; -0.1519;
    -0.0750; -0.0417; -0.0747; -0.1943; -0.1811; -0.2460;  0.0063; -0.0966;
    -0.3029; -0.0626; -0.1517; -0.0471; -0.1599; -0.1057; -0.2611; -0.1744;
    -0.0825; -0.0502; -0.0937; -0.1880; -0.0335; -0.2561; -0.1768; -0.0460;
    -0.0946; -0.2273; -0.1002; -0.1597; -0.2112; -0.1022; -0.1336; -0.2578;
    -0.0447; -0.2451; -0.1326; -0.1242; -0.1280; -0.2598; -0.0506; -0.1412;
    -0.1960; -0.1344; -0.1124; -0.0698; -0.1699; -0.1816; -0.0484; -0.1767;
     0.0985; -0.0996; -0.0471; -0.2042; -0.1190; -0.1257; -0.1852; -0.1945;
    -0.1208; -0.1091; -0.0448; -0.0754; -0.1580; -0.1866; -0.1895; -0.1033;
    -0.0454; -0.0878; -0.0470; -0.2538; -0.1369; -0.1184; -0.1805; -0.0721 ]%Q.

(** Line 10: [static model_default_t b4[256];] *)
Definition b4_placeholder : array_decl :=
  ArrayDecl true false "model_default_t" "b4" 256 None.

(** Line 12: [static model_default_t b4[256] = {...};] *)
Definition b4_literal : array_decl :=
  ArrayDecl true false "model_default_t" "b4" 256 (Some b4_init).

(** Lines 9 to 13: the conditional on the build mode. *)
Definition b4_select : list line :=
  [ Ifndef "__SYNTHESIS__";
    Decl b4_placeholder;
    Else;
    Decl b4_literal;
    Endif ].

(** The whole file, lines 1 to 15. *)
Definition b4_h : list line :=
  [ Comment "Numpy array shape [256]";
    Comment "Min -0.302869617939";
    Comment "Max 0.098474644125";
    Comment "Number of zeros 0";
    Blank;
    Ifndef "B4_H_";
    Define "B4_H_";
    Blank ]
  ++ b4_select ++
  [ Blank;
    Endif ].

(** The figures of the three summary comments (lines 2 to 4). *)
Definition documented_min : Q := (-0.302869617939)%Q.
Definition documented_max : Q := 0.098474644125%Q.
Definition documented_zeros : nat := 0.

(** ** The preprocessor *)

(** An open conditional: whether its current group is kept, and whether its
    [#else] has been seen. *)
Record cond := Cond { c_live : bool; c_else : bool }.

Record pp_state := PP {
  pp_macros : gset string;
  pp_conds : list cond;
  pp_out : list array_decl
}.

Definition pp_active (st : pp_state) : bool := forallb c_live (pp_conds st).

Definition is_defined (m : string) (st : pp_state) : bool :=
  bool_decide (m ∈ pp_macros st).

Definition pp_line (st : pp_state) (l : line) : option pp_state :=
  match l with
  | Comment _ | Blank => Some st
  | Ifndef m =>
      Some (PP (pp_macros st)
               (Cond (negb (is_defined m st)) false :: pp_conds st)
               (pp_out st))
  | Define m =>
      Some (if pp_active st
            then PP ({[ m ]} ∪ pp_macros st) (pp_conds st) (pp_out st)
            else st)
  | Else =>
      match pp_conds st with
      | Cond live false :: cs =>
          Some (PP (pp_macros st) (Cond (negb live) true :: cs) (pp_out st))
      | _ => None
      end
  | Endif =>
      match pp_conds st with
      | _ :: cs => Some (PP (pp_macros st) cs (pp_out st))
      | [] => None
      end
  | Decl d =>
      Some (if pp_active st
            then PP (pp_macros st) (pp_conds st) (pp_out st ++ [d])
            else st)
  end.

Fixpoint pp_lines (st : pp_state) (ls : list line) : option pp_state :=
  match ls with
  | [] => Some st
  | l :: ls' =>
      match pp_line st l with
      | Some st' => pp_lines st' ls'
      | None => None
      end
  end.

(** A translation unit in progress: the macros defined so far and the
    definitions emitted so far. *)
Definition unit_state : Type := gset string * list array_decl.

(** [#include] of a file at the top level of a translation unit.  A stray
    [#else] or [#endif], or a conditional left open, is an error. *)
Definition include (file : list line) (tu : unit_state) : option unit_state :=
  match pp_lines (PP tu.1 [] tu.2) file with
  | Some (PP ms [] out) => Some (ms, out)
  | _ => None
  end.

Fixpoint include_times (n : nat) (file : list line) (tu : unit_state)
  : option unit_state :=
  match n with
  | O => Some tu
  | S n' =>
      match include file tu with
      | Some tu' => include_times n' file tu'
      | None => None
      end
  end.

(** A build configuration is the set of macros given to the compiler. *)
Definition start (cfg : gset string) : unit_state := (cfg, []).

Definition synthesis (cfg : gset string) : bool :=
  bool_decide ("__SYNTHESIS__" ∈ cfg).

(** The definition the build mode selects. *)
Definition selected (cfg : gset string) : array_decl :=
  if synthesis cfg then b4_literal else b4_placeholder.

(** The identifiers spelled on lines 10 and 12.  A macro of one of these
    names would be replaced there before the definition is read; [pp_line]
    takes a definition as it is written, which is what the compiler reads
    when none of the three is a macro. *)
Definition declaration_identifiers : gset string :=
  {[ "static"; "model_default_t"; "b4" ]}.

(** ** Objects *)

(** [model_default_t] is a typedef of the including project and is not
    spelled in this header.  The table is parametric in it: what a
    zero-initialised element holds, and how a decimal literal converts. *)
Class model_default_t (T : Type) := ModelDefault {
  zero_init : T;
  of_literal : Q → T
}.

(** Elements read at the written value of their literal. *)
#[export] Instance exact_value : model_default_t Q :=
  {| zero_init := 0%Q; of_literal := λ q, q |}.

(** Where each element of a defined array comes from: [Some q] for the
    initializer written for it, [None] for an element left to
    zero-initialisation.  Without initializer every element of an array of
    static storage duration is zero-initialised; a list shorter than the
    array leaves the tail to it; a longer list is ill-formed. *)
Definition array_layout (d : array_decl) : option (list (option Q)) :=
  match d_init d with
  | None =>
      if d_static d then Some (replicate (d_size d) None) else None
  | Some ini =>
      if decide (length ini ≤ d_size d)
      then Some ((Some <$> ini) ++ replicate (d_size d - length ini) None)
      else None
  end.

Definition element `{model_default_t T} (src : option Q) : T :=
  match src with
  | Some q => of_literal q
  | None => zero_init
  end.

Definition array_object `{model_default_t T} (d : array_decl)
  : option (list T) :=
  match array_layout d with
  | Some srcs => Some (element <$> srcs)
  | None => None
  end.

(** The definition of [name] in a translation unit; two definitions of one
    name are a redefinition error. *)
Definition definition_of (name : string) (out : list array_decl)
  : option array_decl :=
  match filter (λ d, d_name d = name) out with
  | [d] => Some d
  | _ => None
  end.

(** The array [b4] as a unit that includes the header once sees it. *)
Definition b4_decl (cfg : gset string) : option array_decl :=
  match include b4_h (start cfg) with
  | Some tu => definition_of "b4" tu.2
  | None => None
  end.

Definition b4 `{model_default_t T} (cfg : gset string) : option (list T) :=
  match b4_decl cfg with
  | Some d => array_object d
  | None => None
  end.

(** [name[i] = v] in the consumer: ill-formed on a [const] array, undefined
    out of range, otherwise it replaces element [i]. *)
Definition assign {T} (d : array_decl) (vals : list T) (i : nat) (v : T)
  : option (list T) :=
  if d_const d then None
  else if decide (i < d_size d) then Some (<[i:=v]> vals)
  else None.

(** An array a consumer cannot change. *)
Definition read_only (d : array_decl) : Prop :=
  ∀ (vals : list Q) (i : nat) (v : Q), assign d vals i v = None.

(** ** Summary figures *)

Definition Qlist_min (l : list Q) : option Q :=
  match l with
  | [] => None
  | x :: l' => Some (foldl Qmin x l')
  end.

Definition Qlist_max (l : list Q) : option Q :=
  match l with
  | [] => None
  | x :: l' => Some (foldl Qmax x l')
  end.

Definition count_zeros (l : list Q) : nat :=
  length (filter (λ q, Qeq_bool q 0 = true) l).

(** Rounding to the nearest integer, ties to even. *)
Definition round_half_even (q : Q) : Z :=
  let n := Qnum q in
  let d := Z.pos (Qden q) in
  let f := (n `div` d)%Z in
  match (2 * (n `mod` d) ?= d)%Z with
  | Lt => f
  | Gt => (f + 1)%Z
  | Eq => if Z.even f then f else (f + 1)%Z
  end.

(** A value printed with four decimals, as the generator prints the
    table. *)
Definition print4 (q : Q) : Q := round_half_even (q * 10000) # 10000.

(** ** A floating-point element type *)

(** Modelled from the spec: the typedef [model_default_t] is missing from
    the header; the specification calls the entries floating-point numbers.
    It is taken here as one of the IEEE 754 binary formats: half precision
    (binary16), [float] (binary32) or [double] (binary64). *)
Inductive float_format := binary16 | binary32 | binary64.

(** Bits of precision, hidden bit included. *)
Definition fprec (fmt : float_format) : Z :=
  match fmt with binary16 => 11 | binary32 => 24 | binary64 => 53 end.

Definition femax (fmt : float_format) : Z :=
  match fmt with binary16 => 16 | binary32 => 128 | binary64 => 1024 end.

(** The quotient [n / d] rounded once to the format. *)
Definition float_of_ratio (fmt : float_format) (neg : bool) (n d : positive)
  : spec_float :=
  let '(m, e, l) :=
    SFdiv_core_binary (fprec fmt) (femax fmt) (Z.pos n) 0 (Z.pos d) 0 in
  binary_round_aux (fprec fmt) (femax fmt) neg m e l.

Definition float_of_Q (fmt : float_format) (q : Q) : spec_float :=
  match Qnum q with
  | Z0 => S754_zero false
  | Z.pos n => float_of_ratio fmt false n (Qden q)
  | Z.neg n => float_of_ratio fmt true n (Qden q)
  end.


(** The number a finite float denotes: [m * 2 ^ e], signed. *)
Definition float_value (x : spec_float) : option Q :=
  match x with
  | S754_zero _ => Some 0%Q
  | S754_finite s m e =>
      let a := match e with
               | Z.neg k => Z.pos m # 2 ^ k
               | _ => (Z.pos m * 2 ^ e)%Z # 1
               end in
      Some (if s then Qopp a else a)
  | _ => None
  end.

(** Stored in the format and printed back with four decimals. *)
Definition stored_print4 (x : spec_float) : option Q :=
  print4 <$> float_value x.

(** * Properties *)

(** ** Running the preprocessor over the header *)

(** Symbolic execution of the directives, leaving membership tests in the
    macro set alone. *)
Ltac pp_run :=
  repeat progress
    (unfold is_defined, pp_active;
     cbn [pp_lines pp_line pp_macros pp_conds pp_out forallb c_live c_else
          negb andb fst snd app mbind option_bind]).

(** Defining the guard does not change the build mode. *)
Lemma synthesis_guard_defined cfg :
  synthesis ({[ "B4_H_" ]} ∪ cfg) = synthesis cfg.
Proof.
  unfold synthesis. apply bool_decide_ext.
  rewrite elem_of_union, elem_of_singleton.
  split; [intros [Heq|Hin]; [discriminate Heq | exact Hin] | by right].
Qed.

Lemma pp_lines_app st ls1 ls2 :
  pp_lines st (ls1 ++ ls2) = pp_lines st ls1 ≫= λ st', pp_lines st' ls2.
Proof.
  revert st. induction ls1 as [|l ls1 IH]; intros st; [done|].
  cbn [app pp_lines]. destruct (pp_line st l) as [st'|]; [apply IH | done].
Qed.

(** The conditional of lines 9 to 13, met while text is kept, emits one
    definition and leaves the conditional stack as it found it. *)
Lemma pp_select ms cs out :
  forallb c_live cs = true →
  pp_lines (PP ms cs out) b4_select
  = Some (PP ms cs (out ++ [selected ms])).
Proof.
  intros Hcs. unfold selected, synthesis, b4_select. pp_run.
  destruct (bool_decide ("__SYNTHESIS__" ∈ ms)); pp_run;
    rewrite Hcs; pp_run; reflexivity.
Qed.

(** First inclusion: the guard gets defined and one definition comes out. *)
Lemma include_fresh cfg out :
  "B4_H_" ∉ cfg →
  include b4_h (cfg, out)
  = Some ({[ "B4_H_" ]} ∪ cfg, out ++ [selected cfg]).
Proof.
  intros Hg. unfold include, b4_h. pp_run.
  rewrite (bool_decide_eq_false_2 _ Hg). pp_run.
  rewrite pp_lines_app, pp_select by done. pp_run.
  unfold selected. rewrite synthesis_guard_defined. reflexivity.
Qed.

(** Any later inclusion: every line is skipped. *)
Lemma include_guarded ms out :
  "B4_H_" ∈ ms → include b4_h (ms, out) = Some (ms, out).
Proof.
  intros Hg. unfold include, b4_h, b4_select. pp_run.
  rewrite (bool_decide_eq_true_2 _ Hg). pp_run.
  destruct (bool_decide ("__SYNTHESIS__" ∈ ms)); pp_run; reflexivity.
Qed.

Lemma include_times_guarded n tu :
  "B4_H_" ∈ tu.1 → include_times n b4_h tu = Some tu.
Proof.
  intros Hg. induction n as [|n IH]; [done|].
  destruct tu as [ms out]. cbn [include_times].
  rewrite include_guarded by exact Hg. exact IH.
Qed.

Lemma guard_defined_after cfg : "B4_H_" ∈ ({[ "B4_H_" ]} ∪ cfg : gset string).
Proof. apply elem_of_union_l, elem_of_singleton. reflexivity. Qed.

Lemma synthesis_true cfg : "__SYNTHESIS__" ∈ cfg → synthesis cfg = true.
Proof. intros Hs. apply bool_decide_eq_true_2, Hs. Qed.

Lemma synthesis_false cfg : "__SYNTHESIS__" ∉ cfg → synthesis cfg = false.
Proof. intros Hs. apply bool_decide_eq_false_2, Hs. Qed.

Lemma definition_of_selected cfg :
  definition_of "b4" [selected cfg] = Some (selected cfg).
Proof. unfold selected. destruct (synthesis cfg); reflexivity. Qed.

Lemma b4_decl_fresh cfg : "B4_H_" ∉ cfg → b4_decl cfg = Some (selected cfg).
Proof.
  intros Hg. unfold b4_decl, start. rewrite include_fresh by exact Hg.
  cbn [snd app]. apply definition_of_selected.
Qed.

(** ** Building the object *)

Lemma b4_init_length : length b4_init = 256.
Proof. reflexivity. Qed.

Lemma layout_literal : array_layout b4_literal = Some (Some <$> b4_init).
Proof.
  unfold array_layout, b4_literal. cbn [d_init d_size].
  rewrite b4_init_length. case_decide; [|lia].
  rewrite Nat.sub_diag. cbn [replicate]. by rewrite app_nil_r.
Qed.

Lemma layout_placeholder :
  array_layout b4_placeholder = Some (replicate 256 None).
Proof. reflexivity. Qed.

Lemma object_literal `{model_default_t T} :
  array_object (T:=T) b4_literal = Some (of_literal <$> b4_init).
Proof.
  unfold array_object. rewrite layout_literal.
  by rewrite <- list_fmap_compose.
Qed.

Lemma object_placeholder `{model_default_t T} :
  array_object (T:=T) b4_placeholder = Some (replicate 256 zero_init).
Proof.
  unfold array_object. rewrite layout_placeholder.
  by rewrite fmap_replicate.
Qed.

Lemma b4_synthesis `{model_default_t T} cfg :
  "B4_H_" ∉ cfg → "__SYNTHESIS__" ∈ cfg →
  b4 (T:=T) cfg = Some (of_literal <$> b4_init).
Proof.
  intros Hg Hs. unfold b4. rewrite b4_decl_fresh by exact Hg.
  unfold selected. rewrite synthesis_true by exact Hs. apply object_literal.
Qed.

Lemma b4_no_synthesis `{model_default_t T} cfg :
  "B4_H_" ∉ cfg → "__SYNTHESIS__" ∉ cfg →
  b4 (T:=T) cfg = Some (replicate 256 zero_init).
Proof.
  intros Hg Hs. unfold b4. rewrite b4_decl_fresh by exact Hg.
  unfold selected. rewrite synthesis_false by exact Hs.
  apply object_placeholder.
Qed.

(** ** The table in each build mode *)

(** C1: in synthesis mode [b4] holds, element by element and in the order
    written, the conversion of the 256 literals of the initializer, first
    -0.1326, then -0.2092, and last -0.0721; read at their written value
    the table is the initializer itself. *)
Theorem b4_synthesis_literals `{model_default_t T} (cfg : gset string) :
  "B4_H_" ∉ cfg → "__SYNTHESIS__" ∈ cfg →
  ∃ vals : list T,
    b4 cfg = Some vals
    ∧ (∀ i : nat, vals !! i = of_literal <$> b4_init !! i)
    ∧ vals !! 0%nat = Some (of_literal (-0.1326)%Q)
    ∧ vals !! 1%nat = Some (of_literal (-0.2092)%Q)
    ∧ vals !! 255%nat = Some (of_literal (-0.0721)%Q)
    ∧ b4 (T:=Q) cfg = Some b4_init.
Proof.
  intros Hg Hs. exists (of_literal <$> b4_init).
  split; [by apply b4_synthesis|].
  split; [intros i; apply list_lookup_fmap|].
  repeat split; try reflexivity.
  rewrite b4_synthesis by done. cbn [of_literal exact_value].
  by rewrite list_fmap_id.
Qed.

Lemma b4_synthesis_literals_witness :
  ∃ vals : list Q,
    b4 {[ "__SYNTHESIS__" ]} = Some vals
    ∧ (∀ i : nat, vals !! i = of_literal <$> b4_init !! i)
    ∧ vals !! 0%nat = Some (of_literal (-0.1326)%Q)
    ∧ vals !! 1%nat = Some (of_literal (-0.2092)%Q)
    ∧ vals !! 255%nat = Some (of_literal (-0.0721)%Q)
    ∧ b4 (T:=Q) {[ "__SYNTHESIS__" ]} = Some b4_init.
Proof.
  refine (b4_synthesis_literals (T:=Q) {[ "__SYNTHESIS__" ]} _ _).
  - apply (bool_decide_unpack _). vm_compute. exact I.
  - apply (bool_decide_unpack _). vm_compute. exact I.
Defined.

(** C2: whether or not [__SYNTHESIS__] is defined, [b4] is an array of
    exactly 256 elements. *)
Theorem b4_length `{model_default_t T} (cfg : gset string) :
  "B4_H_" ∉ cfg →
  ∃ (d : array_decl) (vals : list T),
    b4_decl cfg = Some d ∧ d_size d = 256
    ∧ b4 cfg = Some vals ∧ length vals = 256.
Proof.
  intros Hg. destruct (decide ("__SYNTHESIS__" ∈ cfg)) as [Hs|Hs].
  - exists b4_literal, (of_literal <$> b4_init). split_and!.
    + rewrite b4_decl_fresh by done. unfold selected.
      by rewrite synthesis_true.
    + reflexivity.
    + by apply b4_synthesis.
    + by rewrite length_fmap.
  - exists b4_placeholder, (replicate 256 zero_init). split_and!.
    + rewrite b4_decl_fresh by done. unfold selected.
      by rewrite synthesis_false.
    + reflexivity.
    + by apply b4_no_synthesis.
    + by rewrite length_replicate.
Qed.

Lemma b4_length_witness :
  ∃ (d : array_decl) (vals : list Q),
    b4_decl ∅ = Some d ∧ d_size d = 256
    ∧ b4 ∅ = Some vals ∧ length vals = 256.
Proof.
  refine (b4_length (T:=Q) ∅ _).
  apply (bool_decide_unpack _). vm_compute. exact I.
Defined.

(** C3: without [__SYNTHESIS__] each of the 256 elements of [b4] is
    zero-initialised. *)
Theorem b4_placeholder_zero `{model_default_t T} (cfg : gset string) :
  "B4_H_" ∉ cfg → "__SYNTHESIS__" ∉ cfg →
  ∃ vals : list T,
    b4 cfg = Some vals
    ∧ length vals = 256
    ∧ ∀ i : nat, i < 256 → vals !! i = Some zero_init.
Proof.
  intros Hg Hs. exists (replicate 256 zero_init). split_and!.
  - by apply b4_no_synthesis.
  - by rewrite length_replicate.
  - intros i Hi. by apply lookup_replicate_2.
Qed.

Lemma b4_placeholder_zero_witness :
  ∃ vals : list Q,
    b4 ∅ = Some vals
    ∧ length vals = 256
    ∧ ∀ i : nat, i < 256 → vals !! i = Some 0%Q.
Proof.
  refine (b4_placeholder_zero (T:=Q) ∅ _ _).
  - apply (bool_decide_unpack _). vm_compute. exact I.
  - apply (bool_decide_unpack _). vm_compute. exact I.
Defined.

(** C10: the initializer of line 12 has exactly 256 literals, as many as
    the array has elements: the layout is one written literal per element,
    nothing is left to zero-initialisation, and the list does not exceed
    the array. *)
Theorem b4_initializer_complete :
  length b4_init = 256
  ∧ d_init b4_literal = Some b4_init
  ∧ d_size b4_literal = length b4_init
  ∧ array_layout b4_literal = Some (Some <$> b4_init)
  ∧ ∀ srcs, array_layout b4_literal = Some srcs →
      length srcs = 256 ∧ Forall is_Some srcs.
Proof.
  split_and!;
    [reflexivity | reflexivity | reflexivity | apply layout_literal |].
  intros srcs. rewrite layout_literal. intros Heq.
  assert (srcs = Some <$> b4_init) as -> by congruence. split.
  - by rewrite length_fmap.
  - apply Forall_fmap, Forall_true. intros q. by eexists.
Qed.

(** ** Minimum, maximum and zero count *)

Lemma foldl_Qmin_spec (l : list Q) (x : Q) :
  foldl Qmin x l ∈ x :: l ∧ ∀ y, y ∈ x :: l → (foldl Qmin x l <= y)%Q.
Proof.
  revert x. induction l as [|a l IH]; intros x; cbn [foldl].
  - split; [apply list_elem_of_here|].
    intros y Hy. apply list_elem_of_singleton in Hy as ->. apply Qle_refl.
  - destruct (IH (Qmin x a)) as [Hin Hle]. split.
    + apply elem_of_cons in Hin as [Heq|Hin].
      * rewrite Heq. unfold Qmin, GenericMinMax.gmin.
        destruct (x ?= a)%Q; [left|left|right; left]; reflexivity.
      * right; right. exact Hin.
    + intros y Hy.
      assert (Hhead : (foldl Qmin (Qmin x a) l <= Qmin x a)%Q)
        by apply Hle, list_elem_of_here.
      apply elem_of_cons in Hy as [->|Hy];
        [|apply elem_of_cons in Hy as [->|Hy]].
      * eapply Qle_trans; [exact Hhead | apply Q.le_min_l].
      * eapply Qle_trans; [exact Hhead | apply Q.le_min_r].
      * apply Hle. right. exact Hy.
Qed.

Lemma foldl_Qmax_spec (l : list Q) (x : Q) :
  foldl Qmax x l ∈ x :: l ∧ ∀ y, y ∈ x :: l → (y <= foldl Qmax x l)%Q.
Proof.
  revert x. induction l as [|a l IH]; intros x; cbn [foldl].
  - split; [apply list_elem_of_here|].
    intros y Hy. apply list_elem_of_singleton in Hy as ->. apply Qle_refl.
  - destruct (IH (Qmax x a)) as [Hin Hle]. split.
    + apply elem_of_cons in Hin as [Heq|Hin].
      * rewrite Heq. unfold Qmax, GenericMinMax.gmax.
        destruct (x ?= a)%Q; [left|right; left|left]; reflexivity.
      * right; right. exact Hin.
    + intros y Hy.
      assert (Hhead : (Qmax x a <= foldl Qmax (Qmax x a) l)%Q)
        by apply Hle, list_elem_of_here.
      apply elem_of_cons in Hy as [->|Hy];
        [|apply elem_of_cons in Hy as [->|Hy]].
      * eapply Qle_trans; [apply Q.le_max_l | exact Hhead].
      * eapply Qle_trans; [apply Q.le_max_r | exact Hhead].
      * apply Hle. right. exact Hy.
Qed.

(** [Qlist_min] is an element of the list below all the others. *)
Lemma Qlist_min_spec (l : list Q) (m : Q) :
  Qlist_min l = Some m → m ∈ l ∧ ∀ y, y ∈ l → (m <= y)%Q.
Proof.
  destruct l as [|x l]; [discriminate|]. intros [= <-]. apply foldl_Qmin_spec.
Qed.

Lemma Qlist_max_spec (l : list Q) (m : Q) :
  Qlist_max l = Some m → m ∈ l ∧ ∀ y, y ∈ l → (y <= m)%Q.
Proof.
  destruct l as [|x l]; [discriminate|]. intros [= <-]. apply foldl_Qmax_spec.
Qed.

Lemma b4_init_min : Qlist_min b4_init = Some (-0.3029)%Q.
Proof. vm_compute. reflexivity. Qed.

Lemma b4_init_max : Qlist_max b4_init = Some 0.0985%Q.
Proof. vm_compute. reflexivity. Qed.

Lemma b4_init_zeros : count_zeros b4_init = 0.
Proof. vm_compute. reflexivity. Qed.

(** C4: in synthesis mode the least entry of [b4] is -0.3029, the greatest
    is 0.0985 and no entry is zero; these are the figures of the three
    summary comments, the first two printed with four decimals. *)
Theorem b4_summary (cfg : gset string) :
  "B4_H_" ∉ cfg → "__SYNTHESIS__" ∈ cfg →
  ∃ vals : list Q,
    b4 cfg = Some vals
    ∧ Qlist_min vals = Some (-0.3029)%Q
    ∧ Qlist_max vals = Some 0.0985%Q
    ∧ count_zeros vals = 0
    ∧ print4 documented_min = (-0.3029)%Q
    ∧ print4 documented_max = 0.0985%Q
    ∧ documented_zeros = 0.
Proof.
  intros Hg Hs. exists b4_init. split_and!.
  - rewrite b4_synthesis by done. cbn [of_literal exact_value].
    by rewrite list_fmap_id.
  - apply b4_init_min.
  - apply b4_init_max.
  - apply b4_init_zeros.
  - vm_compute. reflexivity.
  - vm_compute. reflexivity.
  - reflexivity.
Qed.

Lemma b4_summary_witness :
  ∃ vals : list Q,
    b4 {[ "__SYNTHESIS__" ]} = Some vals
    ∧ Qlist_min vals = Some (-0.3029)%Q
    ∧ Qlist_max vals = Some 0.0985%Q
    ∧ count_zeros vals = 0
    ∧ print4 documented_min = (-0.3029)%Q
    ∧ print4 documented_max = 0.0985%Q
    ∧ documented_zeros = 0.
Proof.
  refine (b4_summary {[ "__SYNTHESIS__" ]} _ _).
  - apply (bool_decide_unpack _). vm_compute. exact I.
  - apply (bool_decide_unpack _). vm_compute. exact I.
Defined.

(** C9: in synthesis mode every one of the 256 entries of [b4] lies
    between -0.3029 and 0.0985, the documented minimum and maximum printed
    with four decimals. *)
Theorem b4_within_documented_range (cfg : gset string) :
  "B4_H_" ∉ cfg → "__SYNTHESIS__" ∈ cfg →
  ∃ vals : list Q,
    b4 cfg = Some vals
    ∧ length vals = 256
    ∧ print4 documented_min = (-0.3029)%Q
    ∧ print4 documented_max = 0.0985%Q
    ∧ ∀ (i : nat) (x : Q), vals !! i = Some x →
        (-0.3029 <= x)%Q ∧ (x <= 0.0985)%Q.
Proof.
  intros Hg Hs. exists b4_init. split_and!.
  - rewrite b4_synthesis by done. cbn [of_literal exact_value].
    by rewrite list_fmap_id.
  - reflexivity.
  - vm_compute. reflexivity.
  - vm_compute. reflexivity.
  - intros i x Hx. apply list_elem_of_lookup_2 in Hx.
    destruct (Qlist_min_spec _ _ b4_init_min) as [_ Hmin].
    destruct (Qlist_max_spec _ _ b4_init_max) as [_ Hmax].
    split; [apply Hmin | apply Hmax]; exact Hx.
Qed.

Lemma b4_within_documented_range_witness :
  ∃ vals : list Q,
    b4 {[ "__SYNTHESIS__" ]} = Some vals
    ∧ length vals = 256
    ∧ print4 documented_min = (-0.3029)%Q
    ∧ print4 documented_max = 0.0985%Q
    ∧ ∀ (i : nat) (x : Q), vals !! i = Some x →
        (-0.3029 <= x)%Q ∧ (x <= 0.0985)%Q.
Proof.
  refine (b4_within_documented_range {[ "__SYNTHESIS__" ]} _ _).
  - apply (bool_decide_unpack _). vm_compute. exact I.
  - apply (bool_decide_unpack _). vm_compute. exact I.
Defined.

(** The printed extremes lie just outside the unrounded figures of the
    comments: the bounds that hold are the four-decimal ones. *)
Remark printed_extremes_outside_unrounded :
  (-0.3029 < documented_min)%Q ∧ (documented_max < 0.0985)%Q
  ∧ b4_init !! 192%nat = Some (-0.3029)%Q
  ∧ b4_init !! 232%nat = Some 0.0985%Q.
Proof. split_and!; reflexivity. Qed.

(** ** The include guard and the build-mode conditional *)

(** C5: the first inclusion leaves [B4_H_] defined; from then on an
    inclusion changes neither the macros nor the definitions, whatever
    else the unit holds; so including the header any number of times gives
    what including it once gives, with at most one definition of [b4]. *)
Theorem include_idempotent (cfg : gset string) (n : nat) :
  (∀ tu : unit_state, "B4_H_" ∈ tu.1 → include b4_h tu = Some tu)
  ∧ ∃ tu : unit_state,
      include b4_h (start cfg) = Some tu
      ∧ "B4_H_" ∈ tu.1
      ∧ include b4_h tu = Some tu
      ∧ include_times (S n) b4_h (start cfg) = Some tu
      ∧ length (filter (λ d, d_name d = "b4") tu.2) ≤ 1.
Proof.
  split; [intros [ms out] Hg; by apply include_guarded|].
  unfold start. destruct (decide ("B4_H_" ∈ cfg)) as [Hg|Hg].
  - exists (cfg, []). split_and!.
    + by apply include_guarded.
    + exact Hg.
    + by apply include_guarded.
    + by apply (include_times_guarded (S n) (cfg, [])).
    + vm_compute. lia.
  - exists ({[ "B4_H_" ]} ∪ cfg, [selected cfg]).
    pose proof (guard_defined_after cfg) as Hg'. split_and!.
    + by apply include_fresh.
    + exact Hg'.
    + by apply include_guarded.
    + cbn [include_times]. rewrite include_fresh by exact Hg.
      by apply include_times_guarded.
    + unfold selected. destruct (synthesis cfg); vm_compute; lia.
Qed.

Lemma include_idempotent_witness :
  include b4_h ({[ "B4_H_" ]}, [b4_literal])
  = Some ({[ "B4_H_" ]}, [b4_literal])
  ∧ ∃ tu : unit_state,
      include b4_h (start {[ "__SYNTHESIS__" ]}) = Some tu
      ∧ "B4_H_" ∈ tu.1
      ∧ include b4_h tu = Some tu
      ∧ include_times 3 b4_h (start {[ "__SYNTHESIS__" ]}) = Some tu
      ∧ length (filter (λ d, d_name d = "b4") tu.2) ≤ 1.
Proof.
  destruct (include_idempotent {[ "__SYNTHESIS__" ]} 2) as [Hlater Hfirst].
  split; [|exact Hfirst].
  apply (Hlater ({[ "B4_H_" ]}, [b4_literal])).
  apply (bool_decide_unpack _). vm_compute. exact I.
Defined.

(** C7: for every set of macros the conditional of lines 9 to 13 emits
    exactly one definition: the placeholder when [__SYNTHESIS__] is not
    defined, the literal one when it is; the two differ, and a unit that
    includes the header for the first time gets that one definition. *)
Theorem one_definition_selected (cfg : gset string) :
  (∃ d : array_decl,
      pp_lines (PP cfg [] []) b4_select = Some (PP cfg [] [d])
      ∧ ((("__SYNTHESIS__" ∉ cfg) ∧ d = b4_placeholder)
         ∨ ("__SYNTHESIS__" ∈ cfg ∧ d = b4_literal))
      ∧ ("B4_H_" ∉ cfg →
         snd <$> include b4_h (start cfg) = Some [d]))
  ∧ b4_placeholder ≠ b4_literal.
Proof.
  split; [|discriminate].
  exists (selected cfg). split_and!.
  - by apply (pp_select cfg [] []).
  - unfold selected, synthesis. case_bool_decide; [right | left]; done.
  - intros Hg. unfold start. by rewrite include_fresh.
Qed.

Lemma one_definition_selected_witness :
  (∃ d : array_decl,
      pp_lines (PP ∅ [] []) b4_select = Some (PP ∅ [] [d])
      ∧ ((("__SYNTHESIS__" ∉ (∅ : gset string)) ∧ d = b4_placeholder)
         ∨ ("__SYNTHESIS__" ∈ (∅ : gset string) ∧ d = b4_literal))
      ∧ snd <$> include b4_h (start ∅) = Some [d])
  ∧ b4_placeholder ≠ b4_literal.
Proof.
  destruct (one_definition_selected ∅) as [[d (Hsel & Hmode & Hincl)] Hne].
  split; [|exact Hne].
  exists d. split_and!; [exact Hsel | exact Hmode |].
  apply Hincl. apply (bool_decide_unpack _). vm_compute. exact I.
Defined.

(** ** Mutability *)

(** C6, as the claim has it, fails: [b4] is not a constant object.  In
    synthesis mode the assignment [b4[0] = 0] is accepted and replaces the
    entry -0.1326. *)
Lemma b4_assignment_accepted :
  ¬ read_only b4_literal
  ∧ ∃ vals vals' : list Q,
      b4_decl {[ "__SYNTHESIS__" ]} = Some b4_literal
      ∧ b4 {[ "__SYNTHESIS__" ]} = Some vals
      ∧ vals !! 0%nat = Some (-0.1326)%Q
      ∧ assign b4_literal vals 0 0%Q = Some vals'
      ∧ vals' !! 0%nat = Some 0%Q.
Proof.
  split.
  - intros Hro. specialize (Hro b4_init 0%nat 0%Q). discriminate Hro.
  - exists b4_init, (<[0%nat:=0%Q]> b4_init).
    split_and!; vm_compute; reflexivity.
Qed.

(** C6, amended: in both build modes [b4] is defined without [const]; an
    assignment to an entry below 256 is accepted, replaces that entry and
    leaves the other entries and the length as they were. *)
Theorem b4_modifiable {T} (cfg : gset string) (vals : list T)
    (i : nat) (v : T) :
  "B4_H_" ∉ cfg → length vals = 256 → i < 256 →
  ∃ (d : array_decl) (vals' : list T),
    b4_decl cfg = Some d
    ∧ d_const d = false
    ∧ assign d vals i v = Some vals'
    ∧ vals' !! i = Some v
    ∧ (∀ j : nat, j ≠ i → vals' !! j = vals !! j)
    ∧ length vals' = 256.
Proof.
  intros Hg Hlen Hi. exists (selected cfg), (<[i:=v]> vals).
  assert (Hd : d_const (selected cfg) = false ∧ d_size (selected cfg) = 256)
    by (unfold selected; destruct (synthesis cfg); split; reflexivity).
  destruct Hd as [Hconst Hsize]. split_and!.
  - by apply b4_decl_fresh.
  - exact Hconst.
  - unfold assign. rewrite Hconst, Hsize. case_decide; [done | lia].
  - apply list_lookup_insert_eq. lia.
  - intros j Hj. by apply list_lookup_insert_ne.
  - by rewrite length_insert.
Qed.

Lemma b4_modifiable_witness :
  ∃ (d : array_decl) (vals' : list Q),
    b4_decl ∅ = Some d
    ∧ d_const d = false
    ∧ assign d (replicate 256 0%Q) 7 0.5%Q = Some vals'
    ∧ vals' !! 7%nat = Some 0.5%Q
    ∧ (∀ j : nat, j ≠ 7%nat → vals' !! j = replicate 256 0%Q !! j)
    ∧ length vals' = 256.
Proof.
  refine (b4_modifiable ∅ (replicate 256 0%Q) 7 0.5%Q _ _ _).
  - apply (bool_decide_unpack _). vm_compute. exact I.
  - reflexivity.
  - lia.
Defined.

(** ** Precision of the element type *)


(** Eleven bits are not enough: in half precision the entry -0.3029 is
    stored as [-1241 / 4096] and prints back as -0.3030. *)
Remark half_precision_too_short :
  b4_init !! 192%nat = Some (-0.3029)%Q
  ∧ float_of_Q binary16 (-0.3029)%Q = S754_finite true 1241 (-12)
  ∧ stored_print4 (float_of_Q binary16 (-0.3029)%Q) = Some (-0.3030)%Q.
Proof. split_and!; vm_compute; reflexivity. Qed.




(** * Further properties of the header *)

(** ** The header in any preprocessing context *)

(** X1: wherever the header is met, in kept or in skipped text and under
    any stack of open conditionals, its directives are balanced: processing
    never fails and leaves the stack as it was.  In kept text with the
    guard undefined it defines the guard and emits the selected
    definition; in every other case (guard defined, or text skipped) it
    changes nothing, the guard included. *)
Theorem header_in_any_context (ms : gset string) (cs : list cond)
    (out : list array_decl) :
  pp_lines (PP ms cs out) b4_h
  = Some (if forallb c_live cs && negb (bool_decide ("B4_H_" ∈ ms))
          then PP ({[ "B4_H_" ]} ∪ ms) cs (out ++ [selected ms])
          else PP ms cs out).
Proof.
  destruct (forallb c_live cs) eqn:Hcs.
  - destruct (decide ("B4_H_" ∈ ms)) as [Hg|Hg].
    + rewrite (bool_decide_eq_true_2 _ Hg). cbn [negb andb].
      unfold b4_h, b4_select. pp_run.
      rewrite (bool_decide_eq_true_2 _ Hg). pp_run.
      destruct (bool_decide ("__SYNTHESIS__" ∈ ms)); pp_run; reflexivity.
    + rewrite (bool_decide_eq_false_2 _ Hg). cbn [negb andb].
      unfold b4_h. pp_run.
      rewrite (bool_decide_eq_false_2 _ Hg). pp_run. rewrite Hcs.
      rewrite pp_lines_app, pp_select by (cbn [forallb c_live andb]; done).
      pp_run. unfold selected. rewrite synthesis_guard_defined. reflexivity.
  - cbn [andb]. unfold b4_h, b4_select. pp_run.
    destruct (bool_decide ("B4_H_" ∈ ms)) eqn:Hguard;
      destruct (bool_decide ("__SYNTHESIS__" ∈ ms)) eqn:Hmode;
      repeat progress (pp_run; rewrite ?Hcs, ?Hguard, ?Hmode); reflexivity.
Qed.

(** X2: an inclusion at top level succeeds from every unit state.  It adds
    no macro but [B4_H_], so it leaves the build mode as it was; it keeps
    the definitions emitted before it, in order, and appends the selected
    definition when the guard was undefined and nothing otherwise. *)
Theorem include_effect (tu : unit_state) :
  ∃ tu' : unit_state,
    include b4_h tu = Some tu'
    ∧ tu'.1 = {[ "B4_H_" ]} ∪ tu.1
    ∧ tu'.1 ∖ {[ "B4_H_" ]} = tu.1 ∖ {[ "B4_H_" ]}
    ∧ synthesis tu'.1 = synthesis tu.1
    ∧ tu'.2 = tu.2 ++ (if bool_decide ("B4_H_" ∈ tu.1) then []
                       else [selected tu.1]).
Proof.
  destruct tu as [ms out]. cbn [fst snd].
  assert (Hdiff : ({[ "B4_H_" ]} ∪ ms) ∖ {[ "B4_H_" ]}
                  = ms ∖ ({[ "B4_H_" ]} : gset string)).
  { apply set_eq. intros x.
    rewrite !elem_of_difference, elem_of_union. tauto. }
  destruct (decide ("B4_H_" ∈ ms)) as [Hg|Hg].
  - exists (ms, out). cbn [fst snd].
    assert (Hms : ms = {[ "B4_H_" ]} ∪ ms).
    { apply set_eq. intros x. rewrite elem_of_union, elem_of_singleton.
      split; [by right | intros [->|Hx]; done]. }
    rewrite (bool_decide_eq_true_2 _ Hg), app_nil_r. split_and!.
    + by apply include_guarded.
    + exact Hms.
    + reflexivity.
    + reflexivity.
    + reflexivity.
  - exists ({[ "B4_H_" ]} ∪ ms, out ++ [selected ms]). cbn [fst snd].
    rewrite (bool_decide_eq_false_2 _ Hg). split_and!.
    + by apply include_fresh.
    + reflexivity.
    + exact Hdiff.
    + apply synthesis_guard_defined.
    + reflexivity.
Qed.

(** ** What decides the table *)

(** X3: among builds that define none of the identifiers of lines 10 and
    12 as a macro, [__SYNTHESIS__] alone decides the table.  In either
    mode the definition is [static], without [const], of element type
    [model_default_t], named [b4] and of size 256; two builds that agree
    on the flag get the same definition, two builds that differ on it get
    definitions that differ in the initializer only. *)
Theorem table_depends_on_mode_only (cfg1 cfg2 : gset string) :
  "B4_H_" ∉ cfg1 → "B4_H_" ∉ cfg2 →
  cfg1 ## declaration_identifiers → cfg2 ## declaration_identifiers →
  ∃ (d1 d2 : array_decl) (ini1 ini2 : option (list Q)),
    b4_decl cfg1 = Some d1 ∧ b4_decl cfg2 = Some d2
    ∧ d1 = ArrayDecl true false "model_default_t" "b4" 256 ini1
    ∧ d2 = ArrayDecl true false "model_default_t" "b4" 256 ini2
    ∧ (synthesis cfg1 = synthesis cfg2 → d1 = d2)
    ∧ (synthesis cfg1 ≠ synthesis cfg2 → ini1 ≠ ini2).
Proof.
  intros Hg1 Hg2 _ _.
  exists (selected cfg1), (selected cfg2),
         (d_init (selected cfg1)), (d_init (selected cfg2)).
  rewrite !b4_decl_fresh by done. unfold selected.
  destruct (synthesis cfg1), (synthesis cfg2);
    split_and!; try reflexivity; try discriminate; try (intros Hne; done).
Qed.

Lemma table_depends_on_mode_only_witness :
  ∃ (d1 d2 : array_decl) (ini : option (list Q)),
    b4_decl {[ "__SYNTHESIS__"; "NDEBUG" ]} = Some d1
    ∧ b4_decl {[ "__SYNTHESIS__" ]} = Some d2
    ∧ d1 = ArrayDecl true false "model_default_t" "b4" 256 ini
    ∧ d1 = d2.
Proof.
  destruct (table_depends_on_mode_only
              {[ "__SYNTHESIS__"; "NDEBUG" ]} {[ "__SYNTHESIS__" ]})
    as (d1 & d2 & ini1 & ini2 & H1 & H2 & Hd1 & _ & Heq & _).
  - apply (bool_decide_unpack _). vm_compute. exact I.
  - apply (bool_decide_unpack _). vm_compute. exact I.
  - apply (bool_decide_unpack _). vm_compute. exact I.
  - apply (bool_decide_unpack _). vm_compute. exact I.
  - exists d1, d2, ini1. split_and!; try assumption.
    apply Heq. vm_compute. reflexivity.
Defined.

(** ** What the guard is for *)

Lemma synthesis_guard_removed (ms : gset string) :
  synthesis (ms ∖ {[ "B4_H_" ]}) = synthesis ms.
Proof.
  unfold synthesis. apply bool_decide_ext.
  rewrite elem_of_difference, elem_of_singleton.
  split; [by intros [Hin _] | intros Hin; split; [exact Hin | discriminate]].
Qed.

(** X4: the guard is what keeps the definition single.  When [B4_H_] is
    undefined again between two inclusions, or when lines 9 to 13 are
    processed twice without it, the unit holds the selected definition
    twice, and looking [b4] up, which gave that definition after one
    inclusion, now fails as a redefinition. *)
Theorem guard_bypassed_redefines (cfg : gset string) :
  "B4_H_" ∉ cfg →
  ∃ tu1 tu2 : unit_state,
    include b4_h (start cfg) = Some tu1
    ∧ definition_of "b4" tu1.2 = Some (selected cfg)
    ∧ include b4_h (tu1.1 ∖ {[ "B4_H_" ]}, tu1.2) = Some tu2
    ∧ tu2.2 = [selected cfg; selected cfg]
    ∧ definition_of "b4" tu2.2 = None
    ∧ pp_lines (PP cfg [] []) (b4_select ++ b4_select)
      = Some (PP cfg [] tu2.2).
Proof.
  intros Hg.
  exists ({[ "B4_H_" ]} ∪ cfg, [selected cfg]),
         ({[ "B4_H_" ]} ∪ ({[ "B4_H_" ]} ∪ cfg) ∖ {[ "B4_H_" ]},
          [selected cfg; selected cfg]).
  cbn [fst snd]. split_and!.
  - by apply include_fresh.
  - apply definition_of_selected.
  - rewrite include_fresh.
    + unfold selected.
      by rewrite synthesis_guard_removed, synthesis_guard_defined.
    + rewrite elem_of_difference, elem_of_singleton. by intros [_ Hne].
  - reflexivity.
  - unfold selected. destruct (synthesis cfg); reflexivity.
  - rewrite pp_lines_app, pp_select by done. cbn [mbind option_bind app].
    by rewrite pp_select.
Qed.

Lemma guard_bypassed_redefines_witness :
  ∃ tu1 tu2 : unit_state,
    include b4_h (start ∅) = Some tu1
    ∧ definition_of "b4" tu1.2 = Some (selected ∅)
    ∧ include b4_h (tu1.1 ∖ {[ "B4_H_" ]}, tu1.2) = Some tu2
    ∧ tu2.2 = [selected ∅; selected ∅]
    ∧ definition_of "b4" tu2.2 = None
    ∧ pp_lines (PP ∅ [] []) (b4_select ++ b4_select)
      = Some (PP ∅ [] tu2.2).
Proof.
  refine (guard_bypassed_redefines ∅ _).
  apply (bool_decide_unpack _). vm_compute. exact I.
Defined.

(** X5: the build mode is read at the first inclusion only.  Whatever
    macros are defined afterwards, [__SYNTHESIS__] among them, further
    inclusions add nothing, and the unit keeps the definition selected by
    the configuration it started from. *)
Theorem mode_fixed_at_first_inclusion (cfg later : gset string) (n : nat) :
  "B4_H_" ∉ cfg →
  ∃ tu : unit_state,
    include b4_h (start cfg) = Some tu
    ∧ include_times n b4_h (later ∪ tu.1, tu.2) = Some (later ∪ tu.1, tu.2)
    ∧ definition_of "b4" tu.2 = Some (selected cfg).
Proof.
  intros Hg. exists ({[ "B4_H_" ]} ∪ cfg, [selected cfg]).
  cbn [fst snd]. split_and!.
  - by apply include_fresh.
  - apply include_times_guarded. cbn [fst].
    apply elem_of_union_r, guard_defined_after.
  - apply definition_of_selected.
Qed.

Lemma mode_fixed_at_first_inclusion_witness :
  synthesis ∅ = false
  ∧ ∃ tu : unit_state,
      include b4_h (start ∅) = Some tu
      ∧ synthesis ({[ "__SYNTHESIS__" ]} ∪ tu.1) = true
      ∧ include_times 2 b4_h ({[ "__SYNTHESIS__" ]} ∪ tu.1, tu.2)
        = Some ({[ "__SYNTHESIS__" ]} ∪ tu.1, tu.2)
      ∧ definition_of "b4" tu.2 = Some b4_placeholder.
Proof.
  split; [reflexivity|].
  destruct (mode_fixed_at_first_inclusion ∅ {[ "__SYNTHESIS__" ]} 2)
    as (tu & Hfirst & Hlater & Hdef).
  - apply (bool_decide_unpack _). vm_compute. exact I.
  - exists tu. split_and!; [exact Hfirst | | exact Hlater | exact Hdef].
    apply synthesis_true, elem_of_union_l, elem_of_singleton. reflexivity.
Defined.

(** ** The two tables side by side *)

Lemma b4_init_nonzero (x : Q) : x ∈ b4_init → ¬ (x == 0)%Q.
Proof.
  intros Hx Hzero.
  assert (Hall : forallb (λ q, negb (Qeq_bool q 0)) b4_init = true)
    by (vm_compute; reflexivity).
  rewrite forallb_forall in Hall.
  apply list_elem_of_In, Hall in Hx.
  apply Qeq_bool_iff in Hzero. rewrite Hzero in Hx. discriminate Hx.
Qed.

(** X6: the placeholder is no approximation of the real table.  Read at
    their written value, the entries of a synthesis build and of a
    non-synthesis build differ at every one of the 256 indices. *)
Theorem modes_disagree_everywhere (cfg1 cfg2 : gset string) :
  "B4_H_" ∉ cfg1 → "B4_H_" ∉ cfg2 →
  "__SYNTHESIS__" ∈ cfg1 → "__SYNTHESIS__" ∉ cfg2 →
  ∃ vals1 vals2 : list Q,
    b4 cfg1 = Some vals1 ∧ b4 cfg2 = Some vals2
    ∧ ∀ i : nat, i < 256 →
        ∃ x y : Q,
          vals1 !! i = Some x ∧ vals2 !! i = Some y ∧ ¬ (x == y)%Q.
Proof.
  intros Hg1 Hg2 Hs1 Hs2. exists b4_init, (replicate 256 0%Q). split_and!.
  - rewrite b4_synthesis by done. cbn [of_literal exact_value].
    by rewrite list_fmap_id.
  - by rewrite b4_no_synthesis.
  - intros i Hi.
    destruct (lookup_lt_is_Some_2 b4_init i) as [x Hx];
      [by rewrite b4_init_length|].
    exists x, 0%Q. split_and!.
    + exact Hx.
    + by apply lookup_replicate_2.
    + apply b4_init_nonzero. by eapply list_elem_of_lookup_2.
Qed.

Lemma modes_disagree_everywhere_witness :
  ∃ vals1 vals2 : list Q,
    b4 {[ "__SYNTHESIS__" ]} = Some vals1 ∧ b4 ∅ = Some vals2
    ∧ ∀ i : nat, i < 256 →
        ∃ x y : Q,
          vals1 !! i = Some x ∧ vals2 !! i = Some y ∧ ¬ (x == y)%Q.
Proof.
  refine (modes_disagree_everywhere {[ "__SYNTHESIS__" ]} ∅ _ _ _ _).
  - apply (bool_decide_unpack _). vm_compute. exact I.
  - apply (bool_decide_unpack _). vm_compute. exact I.
  - apply (bool_decide_unpack _). vm_compute. exact I.
  - apply (bool_decide_unpack _). vm_compute. exact I.
Defined.
